(** * Reservation backend: the booking, payment and availability routes of
    [src/backend/server.js], embedded as programs over the calls they make to
    the Booking model, the payment gateway, the clock and the console. *)

From Stdlib Require Import ZArith List String Ascii Bool Floats Lia.
From Stdlib Require Import DecimalString DecimalZ DecimalPos.
Import ListNotations.

Set Warnings "-register-all,-inexact-float".

Local Open Scope string_scope.
Local Open Scope list_scope.
Local Open Scope Z_scope.

(** ** JavaScript values *)

(** The values a parsed JSON body, a query string or a model document can
    hold.  Numbers are IEEE-754 binary64, as every JavaScript number is. *)
Inductive jsval : Type :=
| JUndefined
| JNull
| JBool (b : bool)
| JNum (x : float)
| JStr (s : string)
| JArr (items : list jsval)
| JObj (fields : list (string * jsval)).

(** A thrown JavaScript [Error]: its [name] and its [message]. *)
Record error : Type := mkError { error_name : string; error_message : string }.

Fixpoint lookup (k : string) (fields : list (string * jsval)) : jsval :=
  match fields with
  | [] => JUndefined
  | (k', v) :: rest => if String.eqb k k' then v else lookup k rest
  end.

(** [o.k] (and the binding [const { k } = o]) on a value that is not nullish. *)
Definition prop (o : jsval) (k : string) : jsval :=
  match o with
  | JObj fields => lookup k fields
  | _ => JUndefined
  end.

Definition nullish (v : jsval) : bool :=
  match v with
  | JUndefined | JNull => true
  | _ => false
  end.

(** ToBoolean, as [!userId] applies it. *)
Definition truthy (v : jsval) : bool :=
  match v with
  | JUndefined | JNull => false
  | JBool b => b
  | JNum x => negb (PrimFloat.eqb x 0 || PrimFloat.is_nan x)
  | JStr s => negb (String.eqb s "")
  | JArr _ | JObj _ => true
  end.

(** ToString of an integral number below 1e21 in magnitude, which is what
    [Date.now()] returns: its decimal digits, with a sign when negative. *)
Definition number_to_string (n : Z) : string :=
  NilZero.string_of_int (Z.to_int n).

(** ** HTTP responses *)

Record response : Type := respond { status : Z; body : jsval }.

(** ** The calls a handler makes outside [server.js] *)

Inductive event : Type :=
| BookingSave (fields : jsval)
    (* [new Booking(fields).save()] *)
| BookingFind (filter : jsval) (populate : option string)
    (* [Booking.find(filter)], followed by [.populate(path)] when given *)
| OrdersCreate (options : jsval)
    (* [razorpay.orders.create(options)] *)
| DateNow
    (* [Date.now()] *)
| ConsoleLog (args : list jsval)
| ConsoleError (label : string) (e : error).

(** What the awaited call yields: a rejected promise is [inl]. *)
Definition reply (ev : event) : Type :=
  match ev with
  | BookingSave _ => (error + jsval)%type
  | BookingFind _ _ => (error + list jsval)%type
  | OrdersCreate _ => (error + jsval)%type
  | DateNow => Z
  | ConsoleLog _ => unit
  | ConsoleError _ _ => unit
  end.

(** ** Handler programs *)

Inductive prog (A : Type) : Type :=
| Ret (a : A)
| Throw (e : error)
| Vis (ev : event) (k : reply ev -> prog A).

Arguments Ret {A} a.
Arguments Throw {A} e.
Arguments Vis {A} ev k.

Fixpoint bind {A B : Type} (p : prog A) (f : A -> prog B) : prog B :=
  match p with
  | Ret a => f a
  | Throw e => Throw e
  | Vis ev k => Vis ev (fun x => bind (k x) f)
  end.

(** [try { p } catch (error) { h error }] *)
Fixpoint try_catch {A : Type} (p : prog A) (h : error -> prog A) : prog A :=
  match p with
  | Ret a => Ret a
  | Throw e => h e
  | Vis ev k => Vis ev (fun x => try_catch (k x) h)
  end.

Definition trigger (ev : event) : prog (reply ev) := Vis ev Ret.

(** [await] of a promise: a rejection is thrown at the [await]. *)
Definition await {X : Type} (r : error + X) : prog X :=
  match r with
  | inl e => Throw e
  | inr x => Ret x
  end.

Notation "x <- c ;; k" := (bind c (fun x => k))
  (at level 61, c at next level, right associativity).
Notation "c ;;; k" := (bind c (fun _ => k))
  (at level 61, right associativity).

(** [const { key, ... } = source]: destructuring [undefined] or [null] throws. *)
Definition destructure (source : jsval) (what key : string) : prog unit :=
  match source with
  | JUndefined =>
      Throw (mkError "TypeError"
        ("Cannot destructure property '" ++ key ++ "' of '" ++ what
           ++ "' as it is undefined.")%string)
  | JNull =>
      Throw (mkError "TypeError"
        ("Cannot destructure property '" ++ key ++ "' of '" ++ what
           ++ "' as it is null.")%string)
  | _ => Ret tt
  end.

(** The template literal of the receipt, [`order_rcptid_${Date.now()}`]. *)
Definition receipt_id (now : Z) : string :=
  ("order_rcptid_" ++ number_to_string now)%string.

Section Handlers.

(** [mongoose.Types.ObjectId.isValid], of the mongoose library. *)
Variable isValid : jsval -> bool.

(** ECMAScript ToNumber on strings, arrays and objects (StringToNumber,
    after ToPrimitive), of the language runtime. *)
Variable ToNumberOther : jsval -> float.

Definition ToNumber (v : jsval) : float :=
  match v with
  | JUndefined => PrimFloat.nan
  | JNull => 0%float
  | JBool true => 1%float
  | JBool false => 0%float
  | JNum x => x
  | other => ToNumberOther other
  end.

(** [a * b] on JavaScript values. *)
Definition js_mul (a b : jsval) : float :=
  PrimFloat.mul (ToNumber a) (ToNumber b).

(** [app.post("/api/bookings", ...)] *)
Definition post_api_bookings (req_body : jsval) : prog response :=
  try_catch
    (destructure req_body "req.body" "userId" ;;;
     let userId := prop req_body "userId" in
     let restaurantId := prop req_body "restaurantId" in
     let date := prop req_body "date" in
     let time := prop req_body "time" in
     let seats := prop req_body "seats" in
     let amountPaid := prop req_body "amountPaid" in
     let confirmationCode := prop req_body "confirmationCode" in
     trigger (ConsoleLog [JStr "Received Booking Data:"; req_body]) ;;;
     r <- trigger (BookingSave (JObj
            [ ("userId", userId);
              ("restaurantId", restaurantId);
              ("date", date);
              ("time", time);
              ("seats", seats);
              ("amountPaid", amountPaid);
              ("confirmationCode", confirmationCode) ])) ;;
     savedBooking <- await r ;;
     Ret (respond 201 savedBooking))
    (fun error =>
       Ret (respond 500
         (JObj [("message",
                 JStr ("Server error: " ++ error_message error)%string)]))).

(** [app.get("/api/bookings/:userId", ...)] *)
Definition get_api_bookings (userId : string) : prog response :=
  try_catch
    (trigger (ConsoleLog [JStr "Fetching bookings for user:"; JStr userId]) ;;;
     r <- trigger (BookingFind (JObj [("userId", JStr userId)])
                               (Some "restaurantId")) ;;
     userBookings <- await r ;;
     if (List.length userBookings =? 0)%nat
     then Ret (respond 404 (JObj [("message", JStr "No bookings found")]))
     else Ret (respond 200 (JArr userBookings)))
    (fun error =>
       trigger (ConsoleError "Error fetching bookings:" error) ;;;
       Ret (respond 500 (JObj [("message", JStr "Error fetching bookings")]))).

(** [app.post("/api/payment", ...)] *)
Definition post_api_payment (req_body : jsval) : prog response :=
  try_catch
    (destructure req_body "req.body" "amount" ;;;
     let amount := prop req_body "amount" in
     let currency := prop req_body "currency" in
     now <- trigger DateNow ;;
     let options := JObj
       [ ("amount", JNum (js_mul amount (JNum 100)));
         ("currency", currency);
         ("receipt", JStr (receipt_id now)) ] in
     r <- trigger (OrdersCreate options) ;;
     order <- await r ;;
     Ret (respond 200 order))
    (fun error =>
       trigger (ConsoleError "Razorpay Error:" error) ;;;
       Ret (respond 500 (JObj [("error", JStr "Failed to create order")]))).

(** [app.get("/bookings", ...)]; [req_query] is the parsed query string,
    which Express always provides as an object. *)
Definition get_bookings (req_query : list (string * jsval)) : prog response :=
  try_catch
    (let userId := lookup "userId" req_query in
     if negb (truthy userId)
     then Ret (respond 400 (JObj [("error", JStr "userId is required")]))
     else if negb (isValid userId)
     then Ret (respond 400 (JObj [("error", JStr "Invalid userId format")]))
     else
       r <- trigger (BookingFind (JObj [("userId", userId)]) None) ;;
       bookings <- await r ;;
       Ret (respond 200 (JArr bookings)))
    (fun error =>
       trigger (ConsoleError "Error fetching bookings:" error) ;;;
       Ret (respond 500 (JObj [("error", JStr "Internal server error")]))).

(** [app.get('/api/userAvailability/:userId/availability', ...)] *)
Definition get_user_availability (userId : string) : prog response :=
  Ret (respond 200
    (JObj [("userId", JStr userId); ("availability", JBool true)])).

(** The routes of [server.js] that the booking workflow uses. *)
Inductive request : Type :=
| PostApiBookings (req_body : jsval)
| GetApiBookings (userId : string)
| PostApiPayment (req_body : jsval)
| GetBookings (req_query : list (string * jsval))
| GetUserAvailability (userId : string).

Definition route (r : request) : prog response :=
  match r with
  | PostApiBookings b => post_api_bookings b
  | GetApiBookings u => get_api_bookings u
  | PostApiPayment b => post_api_payment b
  | GetBookings q => get_bookings q
  | GetUserAvailability u => get_user_availability u
  end.

End Handlers.

(** ** Running a handler against its environment *)

Inductive outcome (A : Type) : Type :=
| Done (a : A)
| Uncaught (e : error).

Arguments Done {A} a.
Arguments Uncaught {A} e.

Section Run.

Context {W : Type}.

(** How the environment answers each call and what the call does to it. *)
Variable answer : forall ev : event, W -> reply ev * W.

(** The result of a handler, the environment it leaves and the calls it
    issued, in order. *)
Fixpoint run {A : Type} (p : prog A) (w : W) : outcome A * W * list event :=
  match p with
  | Ret a => (Done a, w, [])
  | Throw e => (Uncaught e, w, [])
  | Vis ev k =>
      let (x, w1) := answer ev w in
      let '(o, w2, calls) := run (k x) w1 in
      (o, w2, ev :: calls)
  end.

End Run.

(** The receipt of the order a run handed to the gateway, if it handed one. *)
Fixpoint receipt_of (calls : list event) : option jsval :=
  match calls with
  | [] => None
  | OrdersCreate options :: _ => Some (prop options "receipt")
  | _ :: rest => receipt_of rest
  end.

(** The amount of the order a run handed to the gateway, if it handed one. *)
Fixpoint amount_of (calls : list event) : option jsval :=
  match calls with
  | [] => None
  | OrdersCreate options :: _ => Some (prop options "amount")
  | _ :: rest => amount_of rest
  end.

(** ** The Booking model, the store behind it and the gateway

    [server.js] imports the Booking model from models/Booking.js and the
    gateway client from the razorpay package; neither is among the sources.
    What follows gives them the behaviour that the spec describes, so that the
    handlers can be run as a machine. *)

Definition is_hex_digit (c : ascii) : bool :=
  let n := nat_of_ascii c in
  ((48 <=? n) && (n <=? 57) || (97 <=? n) && (n <=? 102)
   || (65 <=? n) && (n <=? 70))%nat.

(** Modelled from the spec: the identifier format that the Identity Validator
    of section 4.1 checks, a 24-character hex object reference; the schema of
    models/Booking.js, not among the sources, is taken to cast [userId] to
    it. *)
Definition well_formed_id (s : string) : bool :=
  (String.length s =? 24)%nat && forallb is_hex_digit (list_ascii_of_string s).

Definition valid_id (v : jsval) : bool :=
  match v with
  | JStr s => well_formed_id s
  | _ => false
  end.

Definition booking_fields : list string :=
  [ "userId"; "restaurantId"; "date"; "time"; "seats"; "amountPaid";
    "confirmationCode" ].

(** A number that is finite, and one that is a whole number. *)
Definition is_finite (x : float) : bool :=
  match Prim2SF x with
  | S754_zero _ | S754_finite _ _ _ => true
  | _ => false
  end.

Definition is_integer (x : float) : bool :=
  match Prim2SF x with
  | S754_zero _ => true
  | S754_finite _ m e => (0 <=? e) || (Z.pos m mod 2 ^ (- e) =? 0)
  | _ => false
  end.

(** Modelled from the spec: [seats] as models/Booking.js, not among the
    sources, is to check it; section 3 asks for a positive integer. *)
Definition seats_ok (v : jsval) : bool :=
  match v with
  | JNum x => PrimFloat.ltb 0 x && is_integer x
  | _ => false
  end.

(** Modelled from the spec: [amountPaid] as models/Booking.js, not among the
    sources, is to check it; section 3 asks for a non-negative amount. *)
Definition amount_ok (v : jsval) : bool :=
  match v with
  | JNum x => PrimFloat.leb 0 x && is_finite x
  | _ => false
  end.

(** The value of a run of decimal digits, if it is one. *)
Fixpoint digits_value (cs : list ascii) (acc : Z) : option Z :=
  match cs with
  | [] => Some acc
  | c :: rest =>
      let n := nat_of_ascii c in
      if ((48 <=? n) && (n <=? 57))%nat
      then digits_value rest (10 * acc + (Z.of_nat n - 48))
      else None
  end.

Definition leap_year (y : Z) : bool :=
  ((y mod 4 =? 0) && negb (y mod 100 =? 0)) || (y mod 400 =? 0).

Definition days_in_month (y m : Z) : Z :=
  match m with
  | 2 => if leap_year y then 29 else 28
  | 4 | 6 | 9 | 11 => 30
  | _ => 31
  end.

(** Modelled from the spec: the calendar date of a reservation slot
    (section 3), which models/Booking.js, not among the sources, is to
    check; written as the scenarios of section 8 write it, [YYYY-MM-DD]. *)
Definition calendar_date (s : string) : bool :=
  match list_ascii_of_string s with
  | [y1; y2; y3; y4; dash1; m1; m2; dash2; d1; d2] =>
      match digits_value [y1; y2; y3; y4] 0, digits_value [m1; m2] 0,
            digits_value [d1; d2] 0 with
      | Some y, Some m, Some d =>
          Ascii.eqb dash1 "-" && Ascii.eqb dash2 "-"
          && (1 <=? m) && (m <=? 12) && (1 <=? d) && (d <=? days_in_month y m)
      | _, _, _ => false
      end
  | _ => false
  end.

(** Modelled from the spec: the time of day of a reservation slot
    (section 3), which models/Booking.js, not among the sources, is to
    check; written as the scenarios of section 8 write it, [HH:MM]. *)
Definition time_of_day (s : string) : bool :=
  match list_ascii_of_string s with
  | [h1; h2; colon; m1; m2] =>
      match digits_value [h1; h2] 0, digits_value [m1; m2] 0 with
      | Some h, Some m => Ascii.eqb colon ":" && (h <=? 23) && (m <=? 59)
      | _, _ => false
      end
  | _ => false
  end.

Definition date_ok (v : jsval) : bool :=
  match v with
  | JStr s => calendar_date s
  | _ => false
  end.

Definition time_ok (v : jsval) : bool :=
  match v with
  | JStr s => time_of_day s
  | _ => false
  end.

(** The confirmation code is an opaque string (section 3); an empty one
    correlates to nothing. *)
Definition code_ok (v : jsval) : bool :=
  match v with
  | JStr s => negb (String.eqb s "")
  | _ => false
  end.

(** The stored entity that a reference names has it as its [id]. *)
Definition has_id (ref : jsval) (doc : jsval) : bool :=
  match ref, prop doc "id" with
  | JStr r, JStr i => String.eqb r i
  | _, _ => false
  end.

(** Modelled from the spec: the validation that models/Booking.js, which is
    not among the sources, applies on [save], given the identities [us] and
    the restaurants [rs] that exist.  Section 4.2 fails missing and malformed
    fields and requires a well-formed [userId]; section 3 makes
    [restaurantId] a reference, [date] and [time] a calendar date and a time
    of day, [seats] a positive integer, [amountPaid] a non-negative amount
    and [confirmationCode] a string, and requires [userId] and
    [restaurantId] to name an existing identity and an existing restaurant,
    validated at the persistence boundary.  [None] accepts the document. *)
Definition validate (us rs : list jsval) (fields : jsval) : option error :=
  if existsb (fun k => nullish (prop fields k)) booking_fields
  then Some (mkError "ValidationError"
               "Booking validation failed: a required field is missing")
  else if negb (valid_id (prop fields "userId"))
  then Some (mkError "CastError" "Cast to ObjectId failed at path userId")
  else if negb (seats_ok (prop fields "seats"))
  then Some (mkError "ValidationError"
               "Booking validation failed: seats must be a positive integer")
  else if negb (amount_ok (prop fields "amountPaid"))
  then Some (mkError "ValidationError"
               "Booking validation failed: amountPaid must not be negative")
  else if negb (valid_id (prop fields "restaurantId"))
  then Some (mkError "CastError" "Cast to ObjectId failed at path restaurantId")
  else if negb (date_ok (prop fields "date"))
  then Some (mkError "ValidationError"
               "Booking validation failed: date is not a calendar date")
  else if negb (time_ok (prop fields "time"))
  then Some (mkError "ValidationError"
               "Booking validation failed: time is not a time of day")
  else if negb (code_ok (prop fields "confirmationCode"))
  then Some (mkError "ValidationError"
               "Booking validation failed: confirmationCode is not a code")
  else if negb (existsb (has_id (prop fields "userId")) us)
  then Some (mkError "ValidationError"
               "Booking validation failed: userId names no identity")
  else if negb (existsb (has_id (prop fields "restaurantId")) rs)
  then Some (mkError "ValidationError"
               "Booking validation failed: restaurantId names no restaurant")
  else None.

Definition fields_of (v : jsval) : list (string * jsval) :=
  match v with
  | JObj fields => fields
  | _ => []
  end.

Fixpoint set_field (k : string) (v : jsval) (fields : list (string * jsval))
  : list (string * jsval) :=
  match fields with
  | [] => []
  | (k', v') :: rest =>
      if String.eqb k k' then (k', v) :: rest
      else (k', v') :: set_field k v rest
  end.

Record world : Type := mkWorld {
  bookings : list jsval;        (* the Booking collection, in insertion order *)
  restaurants : list jsval;     (* the Restaurant collection *)
  identities : list jsval;      (* the identities that exist *)
  next_id : Z;                  (* source of generated booking ids *)
  next_order : Z;               (* source of gateway order ids *)
  clock : Z;                    (* wall clock, milliseconds *)
  store_failure : option error; (* the store is unreachable or rejects *)
  gateway_failure : option error
}.

(** Modelled from the spec: the id that models/Booking.js, not among the
    sources, gives a new document; section 3 asks for a system-generated
    unique identifier, here the reading of a counter. *)
Definition new_id (n : Z) : string := number_to_string n.

Definition with_id (n : Z) (fields : jsval) : jsval :=
  JObj (("id", JStr (new_id n)) :: fields_of fields).

(** Modelled from the spec: [save] of models/Booking.js, not among the
    sources, as the insert of the Booking Record Store (sections 2 and 4.2):
    a failure of the store or of the validation rejects and stores nothing;
    otherwise the entity gets its id and is appended. *)
Definition booking_save (fields : jsval) (w : world) : (error + jsval) * world :=
  match store_failure w with
  | Some e => (inl e, w)
  | None =>
      match validate (identities w) (restaurants w) fields with
      | Some e => (inl e, w)
      | None =>
          let doc := with_id (next_id w) fields in
          (inr doc,
           mkWorld (bookings w ++ [doc]) (restaurants w) (identities w)
                   (next_id w + 1)
                   (next_order w) (clock w) (store_failure w)
                   (gateway_failure w))
      end
  end.

Definition owned_by (userId : jsval) (doc : jsval) : bool :=
  match userId, prop doc "userId" with
  | JStr u, JStr v => String.eqb u v
  | _, _ => false
  end.

(** Modelled from the spec: [populate] of models/Booking.js, not among the
    sources, as the expansion of a reference into the entity it names
    (section 4.2), [null] when nothing is named. *)
Definition expand (rs : list jsval) (path : string) (doc : jsval) : jsval :=
  let target :=
    match find (has_id (prop doc path)) rs with
    | Some r => r
    | None => JNull
    end in
  JObj (set_field path target (fields_of doc)).

(** Modelled from the spec: [find] of models/Booking.js, not among the
    sources, as the query-by-owner of the Booking Record Store (section 4.2),
    in insertion order. *)
Definition booking_find (filter : jsval) (populate : option string) (w : world)
  : (error + list jsval) * world :=
  match store_failure w with
  | Some e => (inl e, w)
  | None =>
      let owned := List.filter (owned_by (prop filter "userId")) (bookings w) in
      (inr match populate with
           | Some path => map (expand (restaurants w) path) owned
           | None => owned
           end, w)
  end.

(** Modelled from the spec: [orders.create] of the razorpay client, not among
    the sources, as the payment gateway of section 4.3: it answers with the
    order it was given, under an id of its own. *)
Definition orders_create (options : jsval) (w : world) : (error + jsval) * world :=
  match gateway_failure w with
  | Some e => (inl e, w)
  | None =>
      (inr (JObj (("id", JStr ("order_" ++ number_to_string (next_order w))%string)
                    :: fields_of options)),
       mkWorld (bookings w) (restaurants w) (identities w) (next_id w)
               (next_order w + 1)
               (clock w) (store_failure w) (gateway_failure w))
  end.

Definition answer (ev : event) : world -> reply ev * world :=
  match ev return world -> reply ev * world with
  | BookingSave fields => booking_save fields
  | BookingFind filter populate => booking_find filter populate
  | OrdersCreate options => orders_create options
  | DateNow => fun w => (clock w, w)
  | ConsoleLog _ => fun w => (tt, w)
  | ConsoleError _ _ => fun w => (tt, w)
  end.

(** ** The server as a machine over requests *)

(** A request as it arrives: the time it arrives at and whether the store
    and the gateway fail while it is served. *)
Record arrival : Type := mkArrival {
  at_time : Z;
  store_down : option error;
  gateway_down : option error;
  req : request
}.

Definition arrive (a : arrival) (w : world) : world :=
  mkWorld (bookings w) (restaurants w) (identities w) (next_id w)
          (next_order w)
          (at_time a) (store_down a) (gateway_down a).

(** The world before any booking: the identities [us] and the restaurants
    [rs] exist. *)
Definition initial (us rs : list jsval) : world :=
  mkWorld [] rs us 1 1 0 None None.

Section Machine.

Variable isValid : jsval -> bool.
Variable ToNumberOther : jsval -> float.

Definition step (w : world) (a : arrival)
  : outcome response * world * list event :=
  run answer (route isValid ToNumberOther (req a)) (arrive a w).

(** The responses to a sequence of requests, and the world they leave. *)
Fixpoint serve (w : world) (arrivals : list arrival)
  : list (outcome response) * world :=
  match arrivals with
  | [] => ([], w)
  | a :: rest =>
      let '(o, w1, _) := step w a in
      let (os, w2) := serve w1 rest in
      (o :: os, w2)
  end.

End Machine.

(** ** Vocabulary of the statements *)

(** The object literal that [post_api_bookings] hands to [new Booking]. *)
Definition new_booking (req_body : jsval) : jsval :=
  JObj [ ("userId", prop req_body "userId");
         ("restaurantId", prop req_body "restaurantId");
         ("date", prop req_body "date");
         ("time", prop req_body "time");
         ("seats", prop req_body "seats");
         ("amountPaid", prop req_body "amountPaid");
         ("confirmationCode", prop req_body "confirmationCode") ].

(** The exact value of a finite binary64 number, as [m * 2 ^ e]. *)
Definition exact (x : float) : option (Z * Z) :=
  match Prim2SF x with
  | S754_zero _ => Some (0, 0)
  | S754_finite s m e => Some (if s then Z.neg m else Z.pos m, e)
  | _ => None
  end.

(** [r] is exactly one hundred times [a], as real numbers. *)
Definition hundredfold (a r : float) : bool :=
  match exact a, exact r with
  | Some (ma, ea), Some (mr, er) =>
      let e0 := Z.min ea er in
      100 * ma * 2 ^ (ea - e0) =? mr * 2 ^ (er - e0)
  | _, _ => false
  end.

Definition is_create (r : request) : bool :=
  match r with
  | PostApiBookings _ => true
  | _ => false
  end.



(** The invariants of a Booking (section 3 of the spec). *)
Definition booking_inv (doc : jsval) : Prop :=
  (exists x, prop doc "seats" = JNum x /\ PrimFloat.ltb 0 x = true) /\
  (exists y, prop doc "amountPaid" = JNum y /\ PrimFloat.leb 0 y = true).

(** The order that [post_api_payment] hands to the gateway when the clock
    reads [now]. *)
Definition payment_options (ToNumberOther : jsval -> float) (req_body : jsval)
  (now : Z) : jsval :=
  JObj [ ("amount", JNum (js_mul ToNumberOther (prop req_body "amount") (JNum 100)));
         ("currency", prop req_body "currency");
         ("receipt", JStr (receipt_id now)) ].

(** The answer of the [catch] branch of [post_api_bookings]. *)
Definition server_error (e : error) : response :=
  respond 500
    (JObj [("message", JStr ("Server error: " ++ error_message e)%string)]).

(** From [w] to [w']: the restaurants are the same, the id source has not
    gone back, and the bookings of [w] are still there, followed by new ones
    that satisfy the invariants. *)
Definition grows (w w' : world) : Prop :=
  restaurants w' = restaurants w /\
  next_id w <= next_id w' /\
  exists extra,
    bookings w' = bookings w ++ extra /\ Forall booking_inv extra.

(** A ToNumber for strings and objects that parses nothing, for the runs
    whose requests carry numbers. *)
Definition no_parse (v : jsval) : float := PrimFloat.nan.

(** ** The scenarios of the spec (section 8) *)

Definition scenario_fields : list (string * jsval) :=
  [ ("userId", JStr "507f1f77bcf86cd799439011");
    ("restaurantId", JStr "507f191e810c19729de860ea");
    ("date", JStr "2024-05-01");
    ("time", JStr "19:00");
    ("seats", JNum 2);
    ("amountPaid", JNum 500);
    ("confirmationCode", JStr "order_rcptid_1234") ].

Definition scenario_restaurant : jsval :=
  JObj [("id", JStr "507f191e810c19729de860ea"); ("name", JStr "Saffron")].

Definition scenario_user : jsval :=
  JObj [("id", JStr "507f1f77bcf86cd799439011"); ("name", JStr "Asha")].

Definition scenario_world : world :=
  initial [scenario_user] [scenario_restaurant].

Definition scenario_create : arrival :=
  mkArrival 1714550000000 None None (PostApiBookings (JObj scenario_fields)).

Definition scenario_list : arrival :=
  mkArrival 1714550060000 None None (GetApiBookings "507f1f77bcf86cd799439011").

Definition scenario_payment : arrival :=
  mkArrival 1714550000000 None None
    (PostApiPayment (JObj [("amount", JNum 100); ("currency", JStr "INR")])).

Definition connection_refused : error :=
  mkError "MongoNetworkError" "connect ECONNREFUSED 127.0.0.1:27017".

(** ** The rest of [server.js] *)

(** *** Cross-origin access *)

Definition allowedOrigins : list string :=
  [ "https://dreamy-sawine-9424af.netlify.app";
    "https://astounding-faun-baa021.netlify.app";
    "https://cosmic-syrniki-a578fe.netlify.app";
    "http://localhost:5173" ].

(** [array.indexOf(x)] on an array of strings: the first position that holds
    [x], or -1. *)
Fixpoint indexOf (array : list string) (x : string) : Z :=
  match array with
  | [] => -1
  | y :: rest =>
      if String.eqb y x then 0
      else let i := indexOf rest x in if i =? -1 then -1 else i + 1
  end.

(** [corsOptionsDelegate]: [origin] is what [req.header("Origin")] returns,
    the header or [undefined]; the result is what the callback receives, an
    error (always [null]) and the options. *)
Definition corsOptionsDelegate (origin : option string) : option error * jsval :=
  let corsOptions :=
    match origin with
    | None => JObj [("origin", JBool true); ("credentials", JBool true)]
    | Some o =>
        if negb (truthy (JStr o)) || negb (indexOf allowedOrigins o =? -1)
        then JObj [("origin", JBool true); ("credentials", JBool true)]
        else JObj [("origin", JBool false)]
    end in
  (None, corsOptions).

(** *** Uploads *)

(** The fields of a multer file that the configuration reads. *)
Record file : Type := mkFile { originalname : string; mimetype : string }.

(** [storage.destination] *)
Definition destination (f : file) : option error * string :=
  (None, "uploads/").

(** The name under which an upload is stored,
    [Date.now() + "-" + file.originalname]. *)
Definition stored_name (now : Z) (f : file) : string :=
  (number_to_string now ++ "-" ++ originalname f)%string.

(** [storage.filename] *)
Definition filename (f : file) : prog (option error * string) :=
  now <- trigger DateNow ;;
  Ret (None, stored_name now f).

(** [fileFilter]: the error, if any, and whether the file is accepted. *)
Definition fileFilter (f : file) : option error * bool :=
  if negb (String.prefix "image/" (mimetype f))
  then (Some (mkError "Error" "Only image files are allowed!"), false)
  else (None, true).

(** [limits.fileSize] *)
Definition fileSize : Z := 5 * 1024 * 1024.

(** *** Restaurants *)

Section Restaurants.

Context {W : Type}.

(** [mongoose.Types.ObjectId.isValid], of the mongoose library. *)
Variable isValid : jsval -> bool.

(** [Restaurant.findById], of models/Restaurant.js: the awaited document,
    [null] when there is none, or a rejection. *)
Variable findById : string -> W -> (error + jsval) * W.

(** [app.get('/restaurant/:id', ...)]: the response, the environment it
    leaves and the ids it asked the model for. *)
Definition get_restaurant (id : string) (w : W) : response * W * list string :=
  if negb (isValid (JStr id))
  then (respond 400 (JObj [("error", JStr "Invalid restaurant ID")]), w, [])
  else
    let (r, w1) := findById id w in
    match r with
    | inr restaurant =>
        if negb (truthy restaurant)
        then (respond 404 (JObj [("error", JStr "Restaurant not found")]), w1, [id])
        else (respond 200 restaurant, w1, [id])
    | inl error =>
        (respond 500 (JObj [("error", JStr "Error fetching restaurant")]), w1, [id])
    end.

(** Whether two objects are one and the same, which [===] asks of objects
    and which the values here do not carry. *)
Variable same_object : jsval -> jsval -> bool.

(** [a === b] *)
Definition strict_equal (a b : jsval) : bool :=
  match a, b with
  | JUndefined, JUndefined => true
  | JNull, JNull => true
  | JBool x, JBool y => Bool.eqb x y
  | JNum x, JNum y => PrimFloat.eqb x y
  | JStr s, JStr t => String.eqb s t
  | JArr _, JArr _ => same_object a b
  | JObj _, JObj _ => same_object a b
  | _, _ => false
  end.

(** [app.post("/api/restaurants/add", authMiddleware, ...)], once
    [authMiddleware] has passed the request on; [req_ownerId] is the
    [req.ownerId] it left. *)
Definition post_api_restaurants_add (req_ownerId req_body : jsval)
  : prog response :=
  try_catch
    (destructure req_body "req.body" "ownerId" ;;;
     let ownerId := prop req_body "ownerId" in
     if negb (truthy req_ownerId) || negb (strict_equal req_ownerId ownerId)
     then Ret (respond 403
                 (JObj [("message", JStr "Unauthorized: Invalid Owner ID")]))
     else Ret (respond 201
                 (JObj [("message", JStr "Restaurant added successfully!");
                        ("data", req_body)])))
    (fun error =>
       Ret (respond 500
         (JObj [("message", JStr "Server Error");
                ("error", JStr (error_message error))]))).

End Restaurants.

(** *** Kinds of calls *)

(** A call that writes to the booking store. *)
Definition is_write (ev : event) : bool :=
  match ev with
  | BookingSave _ => true
  | _ => false
  end.

(** A call that reaches the booking store. *)
Definition is_store_call (ev : event) : bool :=
  match ev with
  | BookingSave _ | BookingFind _ _ => true
  | _ => false
  end.

(** A call that reaches the payment gateway. *)
Definition is_gateway_call (ev : event) : bool :=
  match ev with
  | OrdersCreate _ => true
  | _ => false
  end.

Definition is_clock_reading (ev : event) : bool :=
  match ev with
  | DateNow => true
  | _ => false
  end.

(** The documents that a run handed to the model to save, in order. *)
Fixpoint saved_documents (calls : list event) : list jsval :=
  match calls with
  | [] => []
  | BookingSave fields :: rest => fields :: saved_documents rest
  | _ :: rest => saved_documents rest
  end.

(** The names of the fields of an object. *)
Definition keys (v : jsval) : list string := map fst (fields_of v).

(** A character that is a decimal digit. *)
Definition is_digit (c : ascii) : bool :=
  let n := nat_of_ascii c in ((48 <=? n) && (n <=? 57))%nat.

(** A string made of decimal digits only. *)
Fixpoint digits (s : string) : bool :=
  match s with
  | EmptyString => true
  | String c rest => is_digit c && digits rest
  end.

(** What [corsOptionsDelegate] answers to an origin it lets in, and to one
    it turns away. *)
Definition cors_allow : jsval :=
  JObj [("origin", JBool true); ("credentials", JBool true)].

Definition cors_refuse : jsval := JObj [("origin", JBool false)].

(** * Properties *)

(** ** Strings and numbers *)

Lemma to_int_not_nil (n : Z) :
  Z.to_int n <> Decimal.Pos Decimal.Nil /\ Z.to_int n <> Decimal.Neg Decimal.Nil.
Proof.
  destruct n as [|p|p]; simpl; split; try discriminate;
    intros H; injection H as H; exact (Unsigned.to_uint_nonnil p H).
Qed.

Lemma number_to_string_inj (m n : Z) :
  number_to_string m = number_to_string n -> m = n.
Proof.
  unfold number_to_string. intros H.
  apply DecimalZ.to_int_inj.
  destruct (to_int_not_nil m) as [Hm1 Hm2], (to_int_not_nil n) as [Hn1 Hn2].
  pose proof (NilZero.isi _ Hm1 Hm2) as Em.
  pose proof (NilZero.isi _ Hn1 Hn2) as En.
  rewrite H in Em. rewrite Em in En. now injection En.
Qed.

Lemma append_inj_l (p s t : string) : (p ++ s = p ++ t)%string -> s = t.
Proof.
  induction p as [|c p IH]; simpl; intros H; [exact H|].
  injection H as H. auto.
Qed.

Lemma receipt_id_inj (m n : Z) : receipt_id m = receipt_id n <-> m = n.
Proof.
  split; [|now intros ->].
  unfold receipt_id. intros H.
  apply number_to_string_inj. exact (append_inj_l _ _ _ H).
Qed.


(** ** What each handler does, whatever the environment answers *)

Section HandlerFacts.

Context {W : Type}.
Variable env : forall ev : event, W -> reply ev * W.
Variable isValid : jsval -> bool.
Variable ToNumberOther : jsval -> float.

(** The booking handler on a body that can be destructured: it logs, hands
    the seven fields to the model and answers from what the model says. *)
Lemma run_post_api_bookings (req_body : jsval) (w : W) :
  nullish req_body = false ->
  run env (post_api_bookings req_body) w =
    let logged := ConsoleLog [JStr "Received Booking Data:"; req_body] in
    let w1 := snd (env logged w) in
    let saved := env (BookingSave (new_booking req_body)) w1 in
    (Done match fst saved with
          | inl e => server_error e
          | inr doc => respond 201 doc
          end,
     snd saved,
     [logged; BookingSave (new_booking req_body)]).
Proof.
  intros Hb. unfold post_api_bookings, new_booking.
  destruct req_body; try discriminate Hb; simpl;
    match goal with |- context [env (ConsoleLog ?a) w] =>
      destruct (env (ConsoleLog a) w) as [[] w1] end; simpl;
    match goal with |- context [env (BookingSave ?a) ?w'] =>
      destruct (env (BookingSave a) w') as [[e|doc] w2] end; reflexivity.
Qed.

Lemma run_post_api_bookings_nullish (req_body : jsval) (w : W) :
  nullish req_body = true ->
  exists e, run env (post_api_bookings req_body) w = (Done (server_error e), w, []).
Proof.
  intros Hb. destruct req_body; try discriminate Hb;
    eexists (mkError "TypeError" _); cbn; reflexivity.
Qed.

(** The listing handler of [/api/bookings/:userId]. *)
Lemma run_get_api_bookings (userId : string) (w : W) :
  run env (get_api_bookings userId) w =
    let logged := ConsoleLog [JStr "Fetching bookings for user:"; JStr userId] in
    let w1 := snd (env logged w) in
    let query := BookingFind (JObj [("userId", JStr userId)]) (Some "restaurantId"%string) in
    let found := env query w1 in
    match fst found with
    | inl e =>
        (Done (respond 500 (JObj [("message", JStr "Error fetching bookings")])),
         snd (env (ConsoleError "Error fetching bookings:" e) (snd found)),
         [logged; query; ConsoleError "Error fetching bookings:" e])
    | inr [] =>
        (Done (respond 404 (JObj [("message", JStr "No bookings found")])),
         snd found, [logged; query])
    | inr (b :: l) =>
        (Done (respond 200 (JArr (b :: l))), snd found, [logged; query])
    end.
Proof.
  unfold get_api_bookings. simpl.
  destruct (env (ConsoleLog _) w) as [[] w1]. simpl.
  destruct (env (BookingFind _ _) w1) as [[e|[|b l]] w2]; simpl; try reflexivity.
  destruct (env (ConsoleError _ e) w2) as [[] w3]. reflexivity.
Qed.

(** The payment handler on a body that can be destructured. *)
Lemma run_post_api_payment (req_body : jsval) (w : W) :
  nullish req_body = false ->
  run env (post_api_payment ToNumberOther req_body) w =
    let now := env DateNow w in
    let order := OrdersCreate (payment_options ToNumberOther req_body (fst now)) in
    let made := env order (snd now) in
    match fst made with
    | inl e =>
        (Done (respond 500 (JObj [("error", JStr "Failed to create order")])),
         snd (env (ConsoleError "Razorpay Error:" e) (snd made)),
         [DateNow; order; ConsoleError "Razorpay Error:" e])
    | inr o => (Done (respond 200 o), snd made, [DateNow; order])
    end.
Proof.
  intros Hb. unfold post_api_payment, payment_options.
  destruct req_body; try discriminate Hb; simpl;
    destruct (env DateNow w) as [now w1]; simpl;
    match goal with |- context [env (OrdersCreate ?a) ?w'] =>
      destruct (env (OrdersCreate a) w') as [[e|o] w2] end; simpl;
    try reflexivity;
    destruct (env (ConsoleError _ e) w2) as [[] w3]; reflexivity.
Qed.

(** The listing handler of [/bookings] turns away a [userId] that is
    missing or that [isValid] refuses, before any call. *)
Lemma run_get_bookings_refused (req_query : list (string * jsval)) (w : W) :
  truthy (lookup "userId" req_query) && isValid (lookup "userId" req_query) = false ->
  exists r,
    run env (get_bookings isValid req_query) w = (Done r, w, []) /\ status r = 400.
Proof.
  unfold get_bookings. intros H.
  destruct (truthy (lookup "userId" req_query)); simpl in *.
  - rewrite H. simpl. eexists. split; reflexivity.
  - eexists. split; reflexivity.
Qed.

Lemma run_get_bookings_accepted (req_query : list (string * jsval)) (w : W) :
  truthy (lookup "userId" req_query) && isValid (lookup "userId" req_query) = true ->
  run env (get_bookings isValid req_query) w =
    let query := BookingFind (JObj [("userId", lookup "userId" req_query)]) None in
    let found := env query w in
    match fst found with
    | inl e =>
        (Done (respond 500 (JObj [("error", JStr "Internal server error")])),
         snd (env (ConsoleError "Error fetching bookings:" e) (snd found)),
         [query; ConsoleError "Error fetching bookings:" e])
    | inr l => (Done (respond 200 (JArr l)), snd found, [query])
    end.
Proof.
  unfold get_bookings. intros H. apply andb_true_iff in H as [Ht Hv].
  rewrite Ht, Hv. simpl.
  destruct (env (BookingFind _ None) w) as [[e|l] w1]; simpl; try reflexivity.
  destruct (env (ConsoleError _ e) w1) as [[] w2]. reflexivity.
Qed.

End HandlerFacts.

(** ** Identifier validation *)

Example abc_is_malformed : well_formed_id "abc" = false.
Proof. reflexivity. Qed.

Example scenario_id_is_well_formed :
  well_formed_id "507f1f77bcf86cd799439011" = true.
Proof. reflexivity. Qed.

(** C1: the claim asks that a malformed [userId] be refused with 400 before
    the store is reached.  [get_bookings] does so (see
    [run_get_bookings_refused]), but for every [userId], malformed ones such
    as ["abc"] included, [post_api_bookings] hands the document to the model
    and [get_api_bookings] issues the query, and neither ever answers 400. *)
Theorem userId_reaches_the_store_unchecked :
  forall (W : Type) (env : forall ev : event, W -> reply ev * W) (w : W)
         (userId : string) (fields : list (string * jsval)),
    let req_body := JObj (("userId", JStr userId) :: fields) in
    (let '(o, _, calls) := run env (post_api_bookings req_body) w in
     In (BookingSave (new_booking req_body)) calls /\
     prop (new_booking req_body) "userId" = JStr userId /\
     exists r, o = Done r /\ status r <> 400) /\
    (let '(o, _, calls) := run env (get_api_bookings userId) w in
     In (BookingFind (JObj [("userId", JStr userId)]) (Some "restaurantId"%string)) calls /\
     exists r, o = Done r /\ status r <> 400).
Proof.
  intros W env w userId fields req_body. split.
  - rewrite run_post_api_bookings by reflexivity. cbv zeta.
    split; [right; left; reflexivity|]. split; [reflexivity|].
    destruct (fst (env (BookingSave _) _)); eexists; (split; [reflexivity|]);
      simpl; discriminate.
  - rewrite run_get_api_bookings. cbv zeta.
    destruct (fst (env (BookingFind _ _) _)) as [e|[|b l]];
      (split; [right; left; reflexivity|]); eexists; (split; [reflexivity|]);
      simpl; discriminate.
Qed.

(** C3: the claim asks for a 400 when a required field is missing.  Whatever
    the body holds or lacks, [post_api_bookings] answers 201 or 500, so a
    request without its fields is never answered with 400. *)
Theorem create_booking_answers_201_or_500 :
  forall (W : Type) (env : forall ev : event, W -> reply ev * W) (w : W)
         (req_body : jsval),
    let '(o, _, _) := run env (post_api_bookings req_body) w in
    exists r, o = Done r /\ (status r = 201 \/ status r = 500).
Proof.
  intros W env w req_body.
  destruct (nullish req_body) eqn:Hb.
  - destruct (run_post_api_bookings_nullish env req_body w Hb) as [e ->].
    eexists. split; [reflexivity|]. now right.
  - rewrite run_post_api_bookings by exact Hb. cbv zeta.
    destruct (fst (env (BookingSave _) _)); eexists; (split; [reflexivity|]);
      simpl; auto.
Qed.

(** C7: the claim asks that a failed write be answered with a generic
    message.  When the model rejects the save with error [e],
    [post_api_bookings] answers 500 with ["Server error: "] followed by the
    message of [e]; when it accepts, 201 with the saved document. *)
Theorem write_failure_message_is_sent :
  forall (W : Type) (env : forall ev : event, W -> reply ev * W) (w : W)
         (fields : list (string * jsval)),
    let req_body := JObj fields in
    let w1 := snd (env (ConsoleLog [JStr "Received Booking Data:"; req_body]) w) in
    fst (fst (run env (post_api_bookings req_body) w)) =
      match fst (env (BookingSave (new_booking req_body)) w1) with
      | inl e =>
          Done (respond 500
            (JObj [("message", JStr ("Server error: " ++ error_message e)%string)]))
      | inr doc => Done (respond 201 doc)
      end.
Proof.
  intros W env w fields req_body w1.
  rewrite run_post_api_bookings by reflexivity. cbv zeta. cbn [fst].
  fold w1. now destruct (fst (env (BookingSave (new_booking req_body)) w1)).
Qed.

(** C6: [get_api_bookings] answers 404 exactly when the query for the user's
    bookings yields the empty array, 200 with the (populated) array when it
    yields a non-empty one, and 500 when the query fails. *)
Theorem listing_is_404_exactly_when_empty :
  forall (W : Type) (env : forall ev : event, W -> reply ev * W) (w : W)
         (userId : string),
    let w1 := snd (env (ConsoleLog [JStr "Fetching bookings for user:"; JStr userId]) w) in
    let found :=
      fst (env (BookingFind (JObj [("userId", JStr userId)])
                            (Some "restaurantId"%string)) w1) in
    exists r,
      fst (fst (run env (get_api_bookings userId) w)) = Done r /\
      (status r = 404 <-> found = inr []) /\
      (forall l, found = inr l -> l <> [] -> r = respond 200 (JArr l)) /\
      (forall e, found = inl e ->
         r = respond 500 (JObj [("message", JStr "Error fetching bookings")])).
Proof.
  intros W env w userId w1 found.
  rewrite run_get_api_bookings. cbv zeta. fold w1. fold found.
  destruct found as [e|[|b l]]; eexists; (split; [reflexivity|]); simpl;
    repeat split; try congruence; try discriminate.
Qed.

(** C10: for every [userId], well formed or not, the availability route
    answers 200 with [{userId, availability: true}], issues no call at all
    and leaves the environment as it found it; served by the machine, it does
    so whatever [isValid] accepts, whatever the store holds and whether or
    not the store and the gateway are failing. *)
Theorem availability_is_constantly_true :
  forall (userId : string),
    (forall (W : Type) (env : forall ev : event, W -> reply ev * W) (w : W),
       run env (get_user_availability userId) w =
         (Done (respond 200
                  (JObj [("userId", JStr userId); ("availability", JBool true)])),
          w, [])) /\
    (forall (isValid : jsval -> bool) (ToNumberOther : jsval -> float)
            (w : world) (now : Z) (store gateway : option error),
       let a := mkArrival now store gateway (GetUserAvailability userId) in
       let '(o, w', calls) := step isValid ToNumberOther w a in
       o = Done (respond 200
                   (JObj [("userId", JStr userId); ("availability", JBool true)])) /\
       calls = [] /\ bookings w' = bookings w).
Proof.
  intros userId. split.
  - intros W env w. reflexivity.
  - intros isValid tn w now store gateway. cbv zeta. unfold step. simpl.
    repeat split.
Qed.

(** ** Payment orders *)

(** What a run of the payment handler hands to the gateway. *)
Lemma payment_calls (W : Type) (env : forall ev : event, W -> reply ev * W)
  (ToNumberOther : jsval -> float) (req_body : jsval) (w : W) :
  nullish req_body = false ->
  exists rest,
    snd (run env (post_api_payment ToNumberOther req_body) w) =
      DateNow
        :: OrdersCreate (payment_options ToNumberOther req_body (fst (env DateNow w)))
        :: rest.
Proof.
  intros Hb. rewrite run_post_api_payment by exact Hb. cbv zeta.
  destruct (fst (env (OrdersCreate _) _)); eexists; reflexivity.
Qed.

(** Scenario 4 of the spec: 100 major units are ordered as 10000 minor
    units, exactly. *)
Example payment_of_100_orders_10000 :
  forall (W : Type) (env : forall ev : event, W -> reply ev * W)
         (ToNumberOther : jsval -> float) (w : W),
    amount_of (snd (run env (post_api_payment ToNumberOther
      (JObj [("amount", JNum 100); ("currency", JStr "INR")])) w))
    = Some (JNum 10000) /\
    hundredfold 100 10000 = true.
Proof.
  intros W env tn w. split; [|reflexivity].
  destruct (payment_calls W env tn
    (JObj [("amount", JNum 100); ("currency", JStr "INR")]) w eq_refl) as [rest ->].
  reflexivity.
Qed.

(** A price with a fractional part: 19.99 is ordered as 1998.9999999999998. *)
Example payment_of_19_99 :
  PrimFloat.mul 19.99 100 = 1998.9999999999998%float /\
  hundredfold 19.99 (PrimFloat.mul 19.99 100) = false.
Proof. split; reflexivity. Qed.

(** C8: the claim asks for an amount of exactly one hundred times the
    requested one.  For the request [{amount: 1.1, currency: "INR"}] the
    handler orders [1.1 * 100] as binary64 arithmetic gives it,
    110.00000000000001, which is not one hundred times the amount. *)
Theorem payment_of_1_1_orders_a_rounded_amount :
  forall (W : Type) (env : forall ev : event, W -> reply ev * W)
         (ToNumberOther : jsval -> float) (w : W),
    amount_of (snd (run env (post_api_payment ToNumberOther
      (JObj [("amount", JNum 1.1); ("currency", JStr "INR")])) w))
    = Some (JNum 110.00000000000001) /\
    hundredfold 1.1 110.00000000000001 = false /\
    PrimFloat.eqb 110.00000000000001 110 = false.
Proof.
  intros W env tn w. split; [|split; reflexivity].
  destruct (payment_calls W env tn
    (JObj [("amount", JNum 1.1); ("currency", JStr "INR")]) w eq_refl) as [rest ->].
  reflexivity.
Qed.

(** C9, as the code has it: the receipt of an order is ["order_rcptid_"]
    followed by the reading of the clock, so two calls get distinct receipts
    exactly when their clock readings differ. *)
Theorem receipts_differ_exactly_when_the_clock_does :
  forall (W : Type) (env : forall ev : event, W -> reply ev * W)
         (ToNumberOther : jsval -> float),
    (forall (req_body : jsval) (w : W),
       receipt_of (snd (run env (post_api_payment ToNumberOther req_body) w)) =
         if nullish req_body then None
         else Some (JStr (receipt_id (fst (env DateNow w))))) /\
    (forall m n : Z, receipt_id m = receipt_id n <-> m = n).
Proof.
  intros W env tn. split; [|exact receipt_id_inj].
  intros req_body w. destruct (nullish req_body) eqn:Hb.
  - destruct req_body; try discriminate Hb; simpl;
      destruct (env (ConsoleError _ _) w) as [[] w1]; reflexivity.
  - destruct (payment_calls W env tn req_body w Hb) as [rest ->]. reflexivity.
Qed.

(** ** The Booking model *)

Lemma seats_ok_refuses_nonpositive (x : float) :
  PrimFloat.leb x 0 = true -> seats_ok (JNum x) = false.
Proof.
  intros H. simpl. apply andb_false_iff. left. revert H.
  rewrite leb_spec, ltb_spec. unfold SFleb, SFltb.
  change (Prim2SF 0) with (S754_zero false).
  destruct (Prim2SF x) as [s|s| |s m e]; simpl; try destruct s; simpl; congruence.
Qed.

Lemma amount_ok_refuses_negative (y : float) :
  PrimFloat.ltb y 0 = true -> amount_ok (JNum y) = false.
Proof.
  intros H. simpl. apply andb_false_iff. left. revert H.
  rewrite leb_spec, ltb_spec. unfold SFleb, SFltb.
  change (Prim2SF 0) with (S754_zero false).
  destruct (Prim2SF y) as [s|s| |s m e]; simpl; try destruct s; simpl; congruence.
Qed.

Lemma validate_accepts (us rs : list jsval) (fields : jsval) :
  validate us rs fields = None <->
  (forall k, In k booking_fields -> nullish (prop fields k) = false) /\
  valid_id (prop fields "userId") = true /\
  seats_ok (prop fields "seats") = true /\
  amount_ok (prop fields "amountPaid") = true /\
  valid_id (prop fields "restaurantId") = true /\
  date_ok (prop fields "date") = true /\
  time_ok (prop fields "time") = true /\
  code_ok (prop fields "confirmationCode") = true /\
  existsb (has_id (prop fields "userId")) us = true /\
  existsb (has_id (prop fields "restaurantId")) rs = true.
Proof.
  unfold validate. split.
  - destruct (existsb _ booking_fields) eqn:Hm; [discriminate|].
    destruct (valid_id (prop fields "userId")); [|discriminate].
    destruct (seats_ok _); [|discriminate].
    destruct (amount_ok _); [|discriminate].
    destruct (valid_id (prop fields "restaurantId")); [|discriminate].
    destruct (date_ok _); [|discriminate].
    destruct (time_ok _); [|discriminate].
    destruct (code_ok _); [|discriminate].
    destruct (existsb _ us); [|discriminate].
    destruct (existsb _ rs); [|discriminate].
    intros _. repeat split; trivial.
    intros k Hk. destruct (nullish (prop fields k)) eqn:Hn; trivial.
    assert (existsb (fun k => nullish (prop fields k)) booking_fields = true)
      by (apply existsb_exists; eauto).
    congruence.
  - intros (Hp & -> & -> & -> & -> & -> & -> & -> & -> & ->).
    destruct (existsb _ booking_fields) eqn:Hm; [|reflexivity].
    apply existsb_exists in Hm as (k & Hk & Hn).
    rewrite (Hp k Hk) in Hn. discriminate.
Qed.

(** The fields that the model sees are those of the request body. *)
Lemma new_booking_prop (req_body : jsval) (k : string) :
  In k booking_fields -> prop (new_booking req_body) k = prop req_body k.
Proof.
  intros Hk. repeat (destruct Hk as [<-|Hk]; [reflexivity|]). destruct Hk.
Qed.

(** The generated id is put in front of the fields and hides none of them. *)
Lemma with_id_prop (n : Z) (req_body : jsval) (k : string) :
  In k booking_fields ->
  prop (with_id n (new_booking req_body)) k = prop req_body k.
Proof.
  intros Hk. repeat (destruct Hk as [<-|Hk]; [reflexivity|]). destruct Hk.
Qed.

Lemma saved_satisfies_invariants (us rs : list jsval) (n : Z) (fields : jsval) :
  validate us rs fields = None -> booking_inv (with_id n fields).
Proof.
  intros Hv. apply validate_accepts in Hv as (_ & _ & Hs & Ha & _).
  destruct fields as [| | | | | |fs]; try discriminate Hs.
  unfold booking_inv, with_id, prop, fields_of in *. simpl.
  split.
  - destruct (lookup "seats" fs); try discriminate Hs.
    simpl in Hs. apply andb_true_iff in Hs as [Hs _]. eauto.
  - destruct (lookup "amountPaid" fs); try discriminate Ha.
    simpl in Ha. apply andb_true_iff in Ha as [Ha _]. eauto.
Qed.

(** ** The machine *)

Lemma grows_refl (w : world) : grows w w.
Proof.
  repeat split; try lia. exists []. now rewrite app_nil_r.
Qed.

Lemma grows_trans (w1 w2 w3 : world) : grows w1 w2 -> grows w2 w3 -> grows w1 w3.
Proof.
  intros (Hr1 & Hn1 & e1 & Hb1 & Hi1) (Hr2 & Hn2 & e2 & Hb2 & Hi2).
  repeat split; try congruence; try lia.
  exists (e1 ++ e2). rewrite Hb2, Hb1, app_assoc. split; trivial.
  apply Forall_app; auto.
Qed.

Lemma answer_grows (ev : event) (w : world) : grows w (snd (answer ev w)).
Proof.
  destruct ev as [fields|filter populate|options| | |]; simpl;
    try apply grows_refl.
  - unfold booking_save. destruct (store_failure w); [apply grows_refl|].
    destruct (validate (identities w) (restaurants w) fields) eqn:Hv;
      [apply grows_refl|]. simpl.
    repeat split; simpl; try lia.
    eexists. split; [reflexivity|].
    constructor; [|constructor]. now apply (saved_satisfies_invariants (identities w) (restaurants w)).
  - unfold booking_find. destruct (store_failure w); apply grows_refl.
  - unfold orders_create. destruct (gateway_failure w); [apply grows_refl|].
    repeat split; simpl; try lia. exists []. now rewrite app_nil_r.
Qed.

Lemma run_grows {A : Type} (p : prog A) (w : world) :
  grows w (snd (fst (run answer p w))).
Proof.
  revert w. induction p as [a|e|ev k IH]; intros w; simpl;
    try apply grows_refl.
  pose proof (answer_grows ev w) as Ha.
  destruct (answer ev w) as [x w1]. simpl in Ha.
  specialize (IH x w1). destruct (run answer (k x) w1) as [[o w2] calls].
  simpl in *. eapply grows_trans; eauto.
Qed.

Lemma arrive_grows (a : arrival) (w : world) : grows w (arrive a w).
Proof.
  repeat split; simpl; try lia. exists []. now rewrite app_nil_r.
Qed.



Section MachineFacts.

Variable isValid : jsval -> bool.
Variable ToNumberOther : jsval -> float.

Lemma step_grows (w : world) (a : arrival) : grows w (snd (fst (step isValid ToNumberOther w a))).
Proof.
  unfold step. eapply grows_trans; [apply arrive_grows|apply run_grows].
Qed.

Lemma serve_cons (w : world) (a : arrival) (rest : list arrival) :
  serve isValid ToNumberOther w (a :: rest) =
    (fst (fst (step isValid ToNumberOther w a)) :: fst (serve isValid ToNumberOther (snd (fst (step isValid ToNumberOther w a))) rest),
     snd (serve isValid ToNumberOther (snd (fst (step isValid ToNumberOther w a))) rest)).
Proof.
  simpl. destruct (step isValid ToNumberOther w a) as [[o w1] calls]. simpl.
  now destruct (serve isValid ToNumberOther w1 rest).
Qed.

Lemma serve_grows (arrivals : list arrival) (w : world) :
  grows w (snd (serve isValid ToNumberOther w arrivals)).
Proof.
  revert w. induction arrivals as [|a rest IH]; intros w.
  - apply grows_refl.
  - rewrite serve_cons. simpl.
    eapply grows_trans; [apply step_grows|apply IH].
Qed.

(** What the machine does with a booking request. *)
Lemma step_create (w : world) (a : arrival) (req_body : jsval) :
  req a = PostApiBookings req_body ->
  nullish req_body = false ->
  step isValid ToNumberOther w a =
    let saved := booking_save (new_booking req_body) (arrive a w) in
    (Done match fst saved with
          | inl e => server_error e
          | inr doc => respond 201 doc
          end,
     snd saved,
     [ConsoleLog [JStr "Received Booking Data:"; req_body];
      BookingSave (new_booking req_body)]).
Proof.
  intros Hr Hb. unfold step. rewrite Hr. simpl route.
  now rewrite run_post_api_bookings.
Qed.

(** A booking request is answered 201 only when the store took the document,
    under the id that the id source held. *)
Lemma step_create_success (w : world) (a : arrival) (doc : jsval) :
  is_create (req a) = true ->
  fst (fst (step isValid ToNumberOther w a)) = Done (respond 201 doc) ->
  exists req_body,
    req a = PostApiBookings req_body /\
    doc = with_id (next_id w) (new_booking req_body) /\
    validate (identities w) (restaurants w) (new_booking req_body) = None /\
    next_id (snd (fst (step isValid ToNumberOther w a))) = next_id w + 1 /\
    In doc (bookings (snd (fst (step isValid ToNumberOther w a)))).
Proof.
  destruct (req a) as [req_body| | | |] eqn:Hr; try discriminate. intros _ H.
  exists req_body. split; [reflexivity|].
  destruct (nullish req_body) eqn:Hb.
  - unfold step in *. rewrite Hr in *. simpl route in *.
    destruct (run_post_api_bookings_nullish answer req_body (arrive a w) Hb)
      as [e He].
    rewrite He in H. discriminate H.
  - rewrite (step_create w a req_body Hr Hb) in *. cbv zeta in *.
    unfold booking_save in *. simpl store_failure in *.
    destruct (store_down a); [discriminate H|].
    simpl identities in *. simpl restaurants in *.
    destruct (validate (identities w) (restaurants w) (new_booking req_body));
      [discriminate H|].
    simpl in *. injection H as <-.
    repeat split. apply in_or_app. right. now left.
Qed.


(** What the machine does with a listing request while the store answers. *)
Lemma step_list (w : world) (b : arrival) (userId : string) :
  req b = GetApiBookings userId ->
  store_down b = None ->
  fst (fst (step isValid ToNumberOther w b)) =
    Done match map (expand (restaurants w) "restaurantId")
                   (filter (owned_by (JStr userId)) (bookings w)) with
         | [] => respond 404 (JObj [("message", JStr "No bookings found")])
         | l => respond 200 (JArr l)
         end.
Proof.
  intros Hr Hs. unfold step. rewrite Hr. simpl route.
  rewrite run_get_api_bookings. cbv zeta. simpl answer.
  unfold booking_find. simpl. rewrite Hs. simpl.
  now destruct (map _ _).
Qed.





End MachineFacts.

(** ** Creating and listing bookings *)



(** C4: a booking request whose [seats] is zero or negative, or whose
    [amountPaid] is negative, is rejected and stores nothing; and every
    booking in the store, after any run from the empty store, has
    [seats > 0] and [amountPaid >= 0]. *)
Theorem nonpositive_seats_and_negative_amounts_are_rejected :
  forall (isValid : jsval -> bool) (ToNumberOther : jsval -> float),
    (forall (w : world) (a : arrival) (req_body : jsval) (x : float),
       req a = PostApiBookings req_body ->
       (prop req_body "seats" = JNum x /\ PrimFloat.leb x 0 = true) \/
       (prop req_body "amountPaid" = JNum x /\ PrimFloat.ltb x 0 = true) ->
       exists e,
         fst (fst (step isValid ToNumberOther w a)) = Done (server_error e) /\
         bookings (snd (fst (step isValid ToNumberOther w a))) = bookings w) /\
    (forall (us rs : list jsval) (arrivals : list arrival) (doc : jsval),
       In doc (bookings (snd (serve isValid ToNumberOther (initial us rs) arrivals))) ->
       booking_inv doc).
Proof.
  intros isValid tn. split.
  - intros w a req_body x Hr Hbad.
    assert (Hb : nullish req_body = false).
    { destruct req_body; try reflexivity;
        destruct Hbad as [[Hbad _]|[Hbad _]]; discriminate Hbad. }
    assert (Hv : validate (identities w) (restaurants w)
                   (new_booking req_body) <> None).
    { intros Hv. apply validate_accepts in Hv as (_ & _ & Hs & Ha & _).
      rewrite new_booking_prop in Hs, Ha by (simpl; tauto).
      destruct Hbad as [[E Hx]|[E Hx]]; rewrite E in *.
      - rewrite (seats_ok_refuses_nonpositive x Hx) in Hs. discriminate Hs.
      - rewrite (amount_ok_refuses_negative x Hx) in Ha. discriminate Ha. }
    rewrite (step_create isValid tn w a req_body Hr Hb). cbv zeta.
    unfold booking_save. simpl store_failure.
    destruct (store_down a) as [e|]; [exists e; split; reflexivity|].
    simpl identities. simpl restaurants.
    destruct (validate (identities w) (restaurants w) (new_booking req_body))
      as [e|]; [|contradiction].
    exists e. split; reflexivity.
  - intros us rs arrivals doc Hin.
    destruct (serve_grows isValid tn arrivals (initial us rs))
      as (_ & _ & extra & Hb & Hinv).
    rewrite Hb in Hin. simpl in Hin.
    rewrite Forall_forall in Hinv. auto.
Qed.

Lemma nonpositive_seats_and_negative_amounts_are_rejected_witness :
  (exists e,
     fst (fst (step valid_id no_parse scenario_world
        (mkArrival 0 None None
           (PostApiBookings (JObj (("seats", JNum 0) :: scenario_fields))))))
       = Done (server_error e)) /\
  booking_inv (with_id 1 (new_booking (JObj scenario_fields))).
Proof.
  split.
  - destruct (proj1 (nonpositive_seats_and_negative_amounts_are_rejected
                       valid_id no_parse)
                scenario_world
                (mkArrival 0 None None
                   (PostApiBookings (JObj (("seats", JNum 0) :: scenario_fields))))
                (JObj (("seats", JNum 0) :: scenario_fields)) 0%float eq_refl
                (or_introl (conj eq_refl eq_refl))) as [e [He _]].
    exists e. exact He.
  - apply (proj2 (nonpositive_seats_and_negative_amounts_are_rejected
                    valid_id no_parse)
             [scenario_user] [scenario_restaurant] [scenario_create]).
    vm_compute. left. reflexivity.
Defined.

(** A booking that is in the store is listed for its owner, with its
    restaurant expanded, while the store answers. *)
Lemma stored_booking_is_listed (isValid : jsval -> bool)
  (ToNumberOther : jsval -> float) (w : world) (b : arrival) (u : string)
  (doc : jsval) :
  In doc (bookings w) ->
  prop doc "userId" = JStr u ->
  req b = GetApiBookings u ->
  store_down b = None ->
  exists l,
    fst (fst (step isValid ToNumberOther w b)) = Done (respond 200 (JArr l)) /\
    In (expand (restaurants w) "restaurantId" doc) l.
Proof.
  intros Hin Hu Hr Hs.
  rewrite (step_list isValid ToNumberOther w b u Hr Hs).
  assert (Hl : In (expand (restaurants w) "restaurantId" doc)
                 (map (expand (restaurants w) "restaurantId")
                      (filter (owned_by (JStr u)) (bookings w)))).
  { apply in_map. apply filter_In. split; [exact Hin|].
    unfold owned_by. rewrite Hu. apply String.eqb_refl. }
  destruct (map _ _) as [|d l]; [destruct Hl|].
  exists (d :: l). split; [reflexivity|exact Hl].
Qed.

(** C5: once a booking request of owner [u] has been answered 201 with
    [doc], every later listing for [u], whatever was served in between and
    provided the store answers the listing, is answered 200 with an array
    that contains [doc], its restaurant reference expanded. *)
Theorem created_booking_is_listed_afterwards :
  forall (isValid : jsval -> bool) (ToNumberOther : jsval -> float)
         (w : world) (a : arrival) (req_body : jsval) (u : string) (doc : jsval)
         (between : list arrival) (b : arrival),
    req a = PostApiBookings req_body ->
    prop req_body "userId" = JStr u ->
    fst (fst (step isValid ToNumberOther w a)) = Done (respond 201 doc) ->
    req b = GetApiBookings u ->
    store_down b = None ->
    let w1 := snd (fst (step isValid ToNumberOther w a)) in
    let w2 := snd (serve isValid ToNumberOther w1 between) in
    exists l,
      fst (fst (step isValid ToNumberOther w2 b)) = Done (respond 200 (JArr l)) /\
      In (expand (restaurants w2) "restaurantId" doc) l.
Proof.
  intros isValid tn w a req_body u doc between b Hr Hu Hd Hb Hs w1 w2.
  assert (Hc : is_create (req a) = true) by now rewrite Hr.
  destruct (step_create_success isValid tn w a doc Hc Hd)
    as (req_body' & Hr' & Hdoc & _ & _ & Hin).
  rewrite Hr in Hr'. injection Hr' as <-.
  apply (stored_booking_is_listed isValid tn w2 b u doc); trivial.
  - destruct (serve_grows isValid tn between w1) as (_ & _ & extra & He & _).
    fold w2 in He. rewrite He. apply in_or_app. now left.
  - rewrite Hdoc, with_id_prop by (simpl; tauto). exact Hu.
Qed.

Lemma created_booking_is_listed_afterwards_witness :
  exists l,
    fst (fst (step valid_id no_parse
      (snd (serve valid_id no_parse
              (snd (fst (step valid_id no_parse scenario_world scenario_create)))
              [scenario_payment; scenario_create]))
      scenario_list)) = Done (respond 200 (JArr l)) /\
    In (expand [scenario_restaurant] "restaurantId"
          (with_id 1 (new_booking (JObj scenario_fields)))) l.
Proof.
  exact (created_booking_is_listed_afterwards valid_id no_parse scenario_world
           scenario_create (JObj scenario_fields) "507f1f77bcf86cd799439011"
           (with_id 1 (new_booking (JObj scenario_fields)))
           [scenario_payment; scenario_create] scenario_list
           eq_refl eq_refl eq_refl eq_refl eq_refl).
Defined.

(** Scenarios 1 and 2 of the spec, run. *)
Example scenario_1_then_2 :
  fst (serve valid_id no_parse scenario_world [scenario_create; scenario_list]) =
    [ Done (respond 201 (JObj (("id", JStr "1") :: scenario_fields)));
      Done (respond 200 (JArr
        [JObj (("id", JStr "1")
                 :: set_field "restaurantId" scenario_restaurant scenario_fields)])) ].
Proof. reflexivity. Qed.

(** Scenario 3 of the spec: a well-formed id that owns no booking is
    answered 404. *)
Example scenario_3 :
  fst (fst (step valid_id no_parse scenario_world
              (mkArrival 0 None None (GetApiBookings "000000000000000000000000")))) =
    Done (respond 404 (JObj [("message", JStr "No bookings found")])).
Proof. reflexivity. Qed.

(** Requests that are not valid are rejected by the model: a restaurant that
    does not exist, a date that is no date, a party of two and a half. *)
Example ill_formed_requests_are_rejected :
  fst (fst (step valid_id no_parse scenario_world
    (mkArrival 0 None None (PostApiBookings
       (JObj (("restaurantId", JStr "507f191e810c19729de860eb") :: scenario_fields))))))
    = Done (server_error (mkError "ValidationError"
        "Booking validation failed: restaurantId names no restaurant")) /\
  fst (fst (step valid_id no_parse scenario_world
    (mkArrival 0 None None (PostApiBookings
       (JObj (("date", JBool true) :: scenario_fields))))))
    = Done (server_error (mkError "ValidationError"
        "Booking validation failed: date is not a calendar date")) /\
  fst (fst (step valid_id no_parse scenario_world
    (mkArrival 0 None None (PostApiBookings
       (JObj (("seats", JNum 2.5) :: scenario_fields))))))
    = Done (server_error (mkError "ValidationError"
        "Booking validation failed: seats must be a positive integer")).
Proof. repeat split. Qed.

(** ** The inputs at which the code leaves the claims *)

(** C9, as stated, fails: two payment requests served within the same
    millisecond, answered by the gateway with two different orders, carry the
    same receipt. *)
Lemma same_millisecond_same_receipt :
  let first := step valid_id no_parse scenario_world scenario_payment in
  let second := step valid_id no_parse (snd (fst first)) scenario_payment in
  receipt_of (snd first) = Some (JStr "order_rcptid_1714550000000") /\
  receipt_of (snd second) = Some (JStr "order_rcptid_1714550000000") /\
  (exists r1 r2,
     fst (fst first) = Done r1 /\ fst (fst second) = Done r2 /\
     prop (body r1) "id" = JStr "order_1" /\ prop (body r2) "id" = JStr "order_2").
Proof.
  repeat split. do 2 eexists. repeat split.
Qed.

(** The malformed [userId] ["abc"]: the listing by path queries the store and
    answers 404, the creation hands it to the model and answers 500, and only
    the listing by query string answers 400 without a call. *)
Example malformed_userId_abc :
  step valid_id no_parse scenario_world
    (mkArrival 0 None None (GetApiBookings "abc")) =
    (Done (respond 404 (JObj [("message", JStr "No bookings found")])),
     scenario_world,
     [ConsoleLog [JStr "Fetching bookings for user:"; JStr "abc"];
      BookingFind (JObj [("userId", JStr "abc")]) (Some "restaurantId"%string)]) /\
  step valid_id no_parse scenario_world
    (mkArrival 0 None None
       (PostApiBookings (JObj (("userId", JStr "abc") :: scenario_fields)))) =
    (Done (server_error (mkError "CastError" "Cast to ObjectId failed at path userId")),
     scenario_world,
     [ConsoleLog [JStr "Received Booking Data:";
                  JObj (("userId", JStr "abc") :: scenario_fields)];
      BookingSave (new_booking (JObj (("userId", JStr "abc") :: scenario_fields)))]) /\
  step valid_id no_parse scenario_world
    (mkArrival 0 None None (GetBookings [("userId", JStr "abc")])) =
    (Done (respond 400 (JObj [("error", JStr "Invalid userId format")])),
     scenario_world, []).
Proof. repeat split. Qed.

(** The empty body: every field is missing and the answer is 500. *)
Example empty_body_is_a_500 :
  fst (fst (step valid_id no_parse scenario_world
              (mkArrival 0 None None (PostApiBookings (JObj []))))) =
    Done (respond 500 (JObj [("message",
      JStr "Server error: Booking validation failed: a required field is missing")])).
Proof. reflexivity. Qed.

(** A store that refuses the connection: the text of its error reaches the
    client. *)
Example connection_error_reaches_the_client :
  fst (fst (step valid_id no_parse scenario_world
              (mkArrival 0 (Some connection_refused) None
                 (PostApiBookings (JObj scenario_fields))))) =
    Done (respond 500 (JObj [("message",
      JStr "Server error: connect ECONNREFUSED 127.0.0.1:27017")])).
Proof. reflexivity. Qed.

(** * The rest of [server.js] *)

(** ** Cross-origin access *)

Lemma indexOf_lower (array : list string) (x : string) : -1 <= indexOf array x.
Proof.
  induction array as [|y rest IH]; simpl; [lia|].
  destruct (String.eqb y x); [lia|].
  destruct (indexOf rest x =? -1); lia.
Qed.

(** [indexOf] is -1 exactly on the strings that the array does not hold. *)
Lemma indexOf_found (array : list string) (x : string) :
  indexOf array x <> -1 <-> In x array.
Proof.
  induction array as [|y rest IH]; simpl.
  - split; [congruence|tauto].
  - destruct (String.eqb_spec y x) as [->|Hne].
    + split; [auto|lia].
    + pose proof (indexOf_lower rest x) as Hl.
      destruct (Z.eqb_spec (indexOf rest x) (-1)) as [He|He].
      * rewrite He in IH. split; [congruence|].
        intros [E|Hin]; [contradiction|]. apply IH in Hin. congruence.
      * split; [intros _; right; now apply IH|lia].
Qed.

(** When [indexOf] finds the string, it gives a position that holds it. *)
Lemma indexOf_position (array : list string) (x : string) :
  indexOf array x <> -1 ->
  nth_error array (Z.to_nat (indexOf array x)) = Some x.
Proof.
  induction array as [|y rest IH]; simpl; [congruence|].
  destruct (String.eqb_spec y x) as [->|Hne]; [reflexivity|].
  pose proof (indexOf_lower rest x) as Hl.
  destruct (Z.eqb_spec (indexOf rest x) (-1)) as [He|He]; [congruence|].
  intros _. replace (Z.to_nat (indexOf rest x + 1)) with (S (Z.to_nat (indexOf rest x))) by lia.
  simpl. now apply IH.
Qed.

(** An origin that is neither empty nor allowed is turned away. *)
Lemma cors_refuses_unlisted (o : string) :
  ~ (o = "" \/ In o allowedOrigins) ->
  snd (corsOptionsDelegate (Some o)) = cors_refuse.
Proof.
  intros Hn. unfold corsOptionsDelegate, cors_refuse. cbn [snd]. unfold truthy.
  destruct (String.eqb_spec o "") as [->|Hne]; [tauto|]. cbn [negb orb].
  destruct (Z.eqb_spec (indexOf allowedOrigins o) (-1)) as [He|He]; [reflexivity|].
  apply indexOf_found in He. tauto.
Qed.

(** X1: [corsOptionsDelegate] lets a request in, with credentials, exactly
    when it carries no [Origin] header, an empty one, or one of the four
    allowed origins; every other origin is turned away, without credentials;
    and the callback never receives an error. *)
Theorem cors_lets_in_exactly_the_allowed_origins :
  forall origin : option string,
    let listed :=
      match origin with
      | None => True
      | Some o => o = "" \/ In o allowedOrigins
      end in
    fst (corsOptionsDelegate origin) = None /\
    (snd (corsOptionsDelegate origin) = cors_allow <-> listed) /\
    (snd (corsOptionsDelegate origin) = cors_refuse <-> ~ listed).
Proof.
  intros [o|]; cbv zeta; unfold corsOptionsDelegate, cors_allow, cors_refuse;
    cbn [fst snd].
  2: { repeat split; auto; try discriminate. intros H. now destruct H. }
  split; [reflexivity|].
  pose proof (indexOf_found allowedOrigins o) as Hf.
  unfold truthy.
  destruct (String.eqb_spec o "") as [->|Hne]; cbn [negb orb].
  - repeat split; auto; try discriminate. intros H. exfalso. apply H. now left.
  - destruct (Z.eqb_spec (indexOf allowedOrigins o) (-1)) as [He|He]; cbn [negb].
    + assert (Hn : ~ In o allowedOrigins) by (intros Hin; apply Hf in Hin; congruence).
      repeat split; try discriminate; try tauto.
    + assert (Hin : In o allowedOrigins) by now apply Hf.
      repeat split; try discriminate; try tauto.
Qed.

Lemma append_empty_r (s : string) : (s ++ "")%string = s.
Proof. induction s as [|c s IH]; simpl; congruence. Qed.

(** No allowed origin extends another one, or itself. *)
Lemma allowed_origin_not_extended (o suffix : string) :
  In o allowedOrigins -> In (o ++ suffix)%string allowedOrigins -> suffix = "".
Proof.
  intros Ho Hos. unfold allowedOrigins in *.
  repeat (destruct Ho as [<-|Ho]);
    try (destruct Ho);
    repeat (destruct Hos as [Hos|Hos]);
    try contradiction;
    try (simpl in Hos; congruence);
    simpl in Hos; repeat (injection Hos as Hos); congruence.
Qed.

(** X2: origins are matched whole: an allowed origin followed by anything,
    such as a further domain label or a path, is turned away. *)
Theorem cors_matches_origins_whole :
  forall o suffix : string,
    In o allowedOrigins ->
    suffix <> "" ->
    snd (corsOptionsDelegate (Some (o ++ suffix)%string)) = cors_refuse.
Proof.
  intros o suffix Ho Hs.
  apply (cors_refuses_unlisted (o ++ suffix)%string).
  intros [He|Hin].
  - destruct o; [|discriminate He].
    simpl in Ho. repeat (destruct Ho as [Ho|Ho]; [discriminate Ho|]). destruct Ho.
  - apply Hs. exact (allowed_origin_not_extended o suffix Ho Hin).
Qed.

(** ** Uploads *)

Lemma string_of_uint_digits (d : Decimal.uint) :
  digits (NilEmpty.string_of_uint d) = true.
Proof. induction d; simpl; trivial. Qed.

(** The decimal rendering of a number: a digit followed by digits, or a
    minus sign followed by digits. *)
Lemma number_to_string_shape (n : Z) :
  exists c s,
    number_to_string n = String c s /\ digits s = true /\
    (is_digit c = true \/ c = "-"%char).
Proof.
  unfold number_to_string.
  assert (Hu : forall p, exists c s,
             NilZero.string_of_uint (Pos.to_uint p) = String c s /\
             digits (String c s) = true).
  { intros p. pose proof (Unsigned.to_uint_nonnil p) as Hn.
    pose proof (string_of_uint_digits (Pos.to_uint p)) as Hd.
    unfold NilZero.string_of_uint.
    destruct (Pos.to_uint p); try contradiction; simpl in *; eauto. }
  destruct n as [|p|p]; simpl.
  - exists "0"%char, ""%string. auto.
  - destruct (Hu p) as (c & s & -> & Hd). simpl in Hd.
    apply andb_true_iff in Hd as [Hc Hs]. exists c, s. auto.
  - destruct (Hu p) as (c & s & -> & Hd). exists "-"%char, (String c s). auto.
Qed.

(** Digits followed by a dash are read back without ambiguity. *)
Lemma digits_then_dash (s1 s2 a b : string) :
  digits s1 = true -> digits s2 = true ->
  (s1 ++ String "-" a = s2 ++ String "-" b)%string ->
  s1 = s2 /\ a = b.
Proof.
  revert s2. induction s1 as [|c s1 IH]; intros [|c2 s2] H1 H2 E; simpl in *.
  - injection E as ->. auto.
  - injection E as <- _. discriminate H2.
  - injection E as -> _. discriminate H1.
  - injection E as -> E.
    apply andb_true_iff in H1 as [_ H1]. apply andb_true_iff in H2 as [_ H2].
    destruct (IH s2 H1 H2 E) as [-> ->]. auto.
Qed.

Lemma stored_name_inj (n1 n2 : Z) (f1 f2 : file) :
  stored_name n1 f1 = stored_name n2 f2 ->
  n1 = n2 /\ originalname f1 = originalname f2.
Proof.
  unfold stored_name. intros E.
  destruct (number_to_string_shape n1) as (c1 & s1 & E1 & D1 & K1).
  destruct (number_to_string_shape n2) as (c2 & s2 & E2 & D2 & K2).
  rewrite E1, E2 in E. simpl in E. injection E as -> E.
  destruct (digits_then_dash s1 s2 _ _ D1 D2 E) as [-> Hn].
  split; [|exact Hn].
  apply number_to_string_inj. congruence.
Qed.

(** X3: [storage.filename] reads the clock once, gives no error and names
    an upload by the clock reading, a dash and the original name; two
    uploads get the same stored name exactly when they were named at the
    same clock reading and have the same original name. *)
Theorem uploads_share_a_name_only_within_a_millisecond :
  forall (W : Type) (env : forall ev : event, W -> reply ev * W) (w1 w2 : W)
         (f1 f2 : file),
    let now1 := fst (env DateNow w1) in
    let now2 := fst (env DateNow w2) in
    let name1 := (number_to_string now1 ++ "-" ++ originalname f1)%string in
    let name2 := (number_to_string now2 ++ "-" ++ originalname f2)%string in
    run env (filename f1) w1 = (Done (None, name1), snd (env DateNow w1), [DateNow]) /\
    run env (filename f2) w2 = (Done (None, name2), snd (env DateNow w2), [DateNow]) /\
    (name1 = name2 <-> now1 = now2 /\ originalname f1 = originalname f2).
Proof.
  intros W env w1 w2 f1 f2. cbv zeta. unfold filename. simpl.
  destruct (env DateNow w1) as [n1 w1'], (env DateNow w2) as [n2 w2']. simpl.
  split; [reflexivity|]. split; [reflexivity|]. split.
  - exact (stored_name_inj n1 n2 f1 f2).
  - intros [-> ->]. reflexivity.
Qed.

Lemma prefix_append (p s : string) :
  String.prefix p s = true <-> exists rest, s = (p ++ rest)%string.
Proof.
  revert s. induction p as [|c p IH]; intros s.
  - split; [intros _; now exists s|now destruct s].
  - destruct s as [|c' s]; simpl;
      [split; [discriminate|intros [rest E]; discriminate E]|].
    destruct (ascii_dec c c') as [->|Hne].
    + rewrite IH. split; intros [rest E]; exists rest; congruence.
    + split; [discriminate|]. intros [rest E]. congruence.
Qed.

(** X4: [fileFilter] accepts a file, without an error, exactly when its
    mimetype is ["image/"] followed by anything; every other file is refused
    with the error "Only image files are allowed!". *)
Theorem file_filter_accepts_exactly_images :
  forall f : file,
    (fileFilter f = (None, true) <->
     exists rest, mimetype f = ("image/" ++ rest)%string) /\
    (fileFilter f = (Some (mkError "Error" "Only image files are allowed!"), false) <->
     ~ exists rest, mimetype f = ("image/" ++ rest)%string).
Proof.
  intros f. unfold fileFilter.
  pose proof (prefix_append "image/" (mimetype f)) as Hp.
  destruct (String.prefix "image/" (mimetype f)); cbn [negb].
  - assert (He : exists rest, mimetype f = ("image/" ++ rest)%string) by now apply Hp.
    split; split; intros H; try discriminate H; try contradiction; auto.
  - assert (Hn : ~ exists rest, mimetype f = ("image/" ++ rest)%string).
    { intros He. apply Hp in He. discriminate He. }
    split; split; intros H; try discriminate H; try contradiction; auto.
Qed.

Lemma cors_matches_origins_whole_witness :
  snd (corsOptionsDelegate (Some "http://localhost:5173.evil.example")) = cors_refuse.
Proof.
  apply (cors_matches_origins_whole "http://localhost:5173" ".evil.example").
  - simpl. tauto.
  - discriminate.
Defined.

(** ** Restaurants *)

(** X5: the restaurant route turns an id that [isValid] refuses away with
    400 before the model is asked; for any other id it asks the model once
    and answers 404 exactly when the model yields nothing, 200 with the
    document when it yields one, and 500 with a fixed message, whatever the
    error, when the model fails. *)
Theorem restaurant_lookup_answers :
  forall (W : Type) (isValid : jsval -> bool)
         (findById : string -> W -> (error + jsval) * W) (id : string) (w : W),
    let '(r, w', asked) := get_restaurant isValid findById id w in
    (status r = 400 <-> isValid (JStr id) = false) /\
    (status r = 400 ->
       asked = [] /\ w' = w /\
       r = respond 400 (JObj [("error", JStr "Invalid restaurant ID")])) /\
    (status r <> 400 ->
       asked = [id] /\ w' = snd (findById id w) /\
       match fst (findById id w) with
       | inl _ => r = respond 500 (JObj [("error", JStr "Error fetching restaurant")])
       | inr found =>
           if truthy found then r = respond 200 found
           else r = respond 404 (JObj [("error", JStr "Restaurant not found")])
       end).
Proof.
  intros W isValid findById id w. unfold get_restaurant.
  destruct (isValid (JStr id)); cbn [negb].
  - destruct (findById id w) as [[e|found] w1]; cbn [fst snd];
      [|destruct (truthy found) eqn:Ht; cbn [negb]];
      (split; [split; [|discriminate]|]);
      try (split; [|intros _; rewrite ?Ht; auto]);
      cbn [status]; try lia.
  - cbn [status]. split; [split; auto|]. split; [auto|].
    intros Hs. exfalso. now apply Hs.
Qed.

(** X6: the route that adds a restaurant answers 201 exactly when the body
    can be destructured and [req.ownerId] is truthy and strictly equal to
    the [ownerId] of the body, then echoing the body as [data]; it answers
    500 exactly when there is no body, and 403 otherwise.  In every case it
    makes no call and leaves the environment as it was: nothing is stored. *)
Theorem add_restaurant_checks_the_owner_and_stores_nothing :
  forall (same_object : jsval -> jsval -> bool) (W : Type)
         (env : forall ev : event, W -> reply ev * W) (w : W)
         (req_ownerId req_body : jsval),
    exists r,
      run env (post_api_restaurants_add same_object req_ownerId req_body) w
        = (Done r, w, []) /\
      (status r = 201 <->
         nullish req_body = false /\ truthy req_ownerId = true /\
         strict_equal same_object req_ownerId (prop req_body "ownerId") = true) /\
      (status r = 201 ->
         r = respond 201 (JObj [("message", JStr "Restaurant added successfully!");
                                ("data", req_body)])) /\
      (status r = 500 <-> nullish req_body = true) /\
      (status r = 201 \/ status r = 403 \/ status r = 500).
Proof.
  intros same_object W env w oid req_body.
  unfold post_api_restaurants_add.
  destruct (nullish req_body) eqn:Hb.
  - destruct req_body; try discriminate Hb; simpl;
      (eexists; split; [reflexivity|]); cbn [status];
      repeat split; auto; try discriminate; try lia;
      intros (H & _); discriminate H.
  - assert (Hd : destructure req_body "req.body" "ownerId" = Ret tt)
      by (destruct req_body; try discriminate Hb; reflexivity).
    rewrite Hd. simpl.
    destruct (truthy oid); cbn [negb orb];
      [destruct (strict_equal same_object oid (prop req_body "ownerId"));
       cbn [negb]|];
      (eexists; split; [reflexivity|]); cbn [status];
      repeat split; auto; try discriminate; try lia;
      try (intros (_ & H & _); discriminate H);
      try (intros (_ & _ & H); discriminate H).
Qed.

(** ** Listing by query string *)

(** X7: the listing by query string answers 400 exactly when [userId] is
    missing or falsy, with "userId is required", or is refused by [isValid],
    with "Invalid userId format"; a 400 is sent before any call and leaves
    the environment as it was. *)
Theorem query_listing_refuses_before_any_call :
  forall (W : Type) (env : forall ev : event, W -> reply ev * W)
         (isValid : jsval -> bool) (w : W) (req_query : list (string * jsval)),
    let userId := lookup "userId" req_query in
    let '(o, w', calls) := run env (get_bookings isValid req_query) w in
    exists r,
      o = Done r /\
      (status r = 400 <-> truthy userId && isValid userId = false) /\
      (status r = 400 -> calls = [] /\ w' = w) /\
      (truthy userId = false ->
         r = respond 400 (JObj [("error", JStr "userId is required")])) /\
      (truthy userId = true -> isValid userId = false ->
         r = respond 400 (JObj [("error", JStr "Invalid userId format")])).
Proof.
  intros W env isValid w req_query userId.
  destruct (truthy userId && isValid userId) eqn:Hc.
  - rewrite (run_get_bookings_accepted env isValid req_query w Hc). cbv zeta.
    apply andb_true_iff in Hc as [Ht Hv].
    destruct (fst (env (BookingFind _ None) w)) as [e|l];
      (eexists; split; [reflexivity|]); cbn [status];
      repeat split; try discriminate; try congruence.
  - unfold get_bookings. fold userId.
    destruct (truthy userId) eqn:Ht; simpl in Hc; cbn [negb].
    + rewrite Hc. simpl. eexists. split; [reflexivity|]. cbn [status].
      repeat split; auto; discriminate.
    + simpl. eexists. split; [reflexivity|]. cbn [status].
      repeat split; auto; discriminate.
Qed.

(** X8: for an owner whose bookings the model finds to be none, the two
    listing routes disagree: the listing by query string answers 200 with
    the empty array, the listing by path answers 404. *)
Theorem listings_disagree_on_no_bookings :
  forall (W : Type) (env : forall ev : event, W -> reply ev * W)
         (isValid : jsval -> bool) (w : W) (u : string),
    truthy (JStr u) && isValid (JStr u) = true ->
    fst (env (BookingFind (JObj [("userId", JStr u)]) None) w) = inr [] ->
    fst (env (BookingFind (JObj [("userId", JStr u)]) (Some "restaurantId"%string))
             (snd (env (ConsoleLog [JStr "Fetching bookings for user:"; JStr u]) w)))
      = inr [] ->
    fst (fst (run env (get_bookings isValid [("userId", JStr u)]) w))
      = Done (respond 200 (JArr [])) /\
    fst (fst (run env (get_api_bookings u) w))
      = Done (respond 404 (JObj [("message", JStr "No bookings found")])).
Proof.
  intros W env isValid w u Hc Hq Hp. split.
  - rewrite (run_get_bookings_accepted env isValid [("userId", JStr u)] w Hc).
    cbv zeta. simpl lookup. now rewrite Hq.
  - rewrite run_get_api_bookings. cbv zeta. now rewrite Hp.
Qed.

Lemma listings_disagree_on_no_bookings_witness :
  fst (fst (run answer
              (get_bookings valid_id [("userId", JStr "000000000000000000000000")])
              scenario_world))
    = Done (respond 200 (JArr [])) /\
  fst (fst (run answer (get_api_bookings "000000000000000000000000") scenario_world))
    = Done (respond 404 (JObj [("message", JStr "No bookings found")])).
Proof.
  exact (listings_disagree_on_no_bookings world answer valid_id scenario_world
           "000000000000000000000000" eq_refl eq_refl eq_refl).
Defined.

(** ** What the handlers never call *)

(** X9: neither listing route ever hands a document to the model to save,
    contacts the gateway or reads the clock. *)
Theorem listings_only_read :
  forall (W : Type) (env : forall ev : event, W -> reply ev * W)
         (isValid : jsval -> bool) (w : W) (userId : string)
         (req_query : list (string * jsval)),
    let quiet ev := negb (is_write ev || is_gateway_call ev || is_clock_reading ev) in
    forallb quiet (snd (run env (get_api_bookings userId) w)) = true /\
    forallb quiet (snd (run env (get_bookings isValid req_query) w)) = true.
Proof.
  intros W env isValid w userId req_query quiet. split.
  - rewrite run_get_api_bookings. cbv zeta.
    now destruct (fst (env (BookingFind _ _) _)) as [e|[|b l]].
  - destruct (truthy (lookup "userId" req_query)
              && isValid (lookup "userId" req_query)) eqn:Hc.
    + rewrite (run_get_bookings_accepted env isValid req_query w Hc). cbv zeta.
      now destruct (fst (env (BookingFind _ None) w)).
    + destruct (run_get_bookings_refused env isValid req_query w Hc) as (r & -> & _).
      reflexivity.
Qed.

(** X10: paying and booking are independent: the payment route never calls
    the Booking model, and the booking route never contacts the gateway nor
    reads the clock, so that the [confirmationCode] of a booking is stored
    without being checked against any order. *)
Theorem paying_and_booking_are_independent :
  forall (W : Type) (env : forall ev : event, W -> reply ev * W)
         (ToNumberOther : jsval -> float) (w : W) (req_body : jsval),
    forallb (fun ev => negb (is_store_call ev))
      (snd (run env (post_api_payment ToNumberOther req_body) w)) = true /\
    forallb (fun ev => negb (is_gateway_call ev || is_clock_reading ev))
      (snd (run env (post_api_bookings req_body) w)) = true.
Proof.
  intros W env tn w req_body. destruct (nullish req_body) eqn:Hb.
  - split.
    + destruct req_body; try discriminate Hb; simpl;
        destruct (env (ConsoleError _ _) w) as [[] w1]; reflexivity.
    + destruct (run_post_api_bookings_nullish env req_body w Hb) as [e ->].
      reflexivity.
  - split.
    + rewrite run_post_api_payment by exact Hb. cbv zeta.
      now destruct (fst (env (OrdersCreate _) _)).
    + rewrite run_post_api_bookings by exact Hb. reflexivity.
Qed.

(** ** Payments *)

(** X11: the payment route answers 200 or 500; a 200 carries the order that
    the gateway returned, as it is, and every 500 carries the same fixed
    body, whether the body was missing or the gateway failed, whatever the
    error was. *)
Theorem payment_failures_are_generic :
  forall (W : Type) (env : forall ev : event, W -> reply ev * W)
         (ToNumberOther : jsval -> float) (w : W) (req_body : jsval),
    let '(o, _, calls) := run env (post_api_payment ToNumberOther req_body) w in
    exists r,
      o = Done r /\
      (r = respond 500 (JObj [("error", JStr "Failed to create order")]) /\
       (exists e, In (ConsoleError "Razorpay Error:" e) calls)
       \/
       status r = 200 /\
       exists options w1,
         In (OrdersCreate options) calls /\
         fst (env (OrdersCreate options) w1) = inr (body r)).
Proof.
  intros W env tn w req_body. destruct (nullish req_body) eqn:Hb.
  - destruct req_body; try discriminate Hb; simpl;
      destruct (env (ConsoleError _ _) w) as [[] w1];
      eexists; (split; [reflexivity|]); left; (split; [reflexivity|]);
      eexists; left; reflexivity.
  - rewrite run_post_api_payment by exact Hb. cbv zeta.
    destruct (fst (env (OrdersCreate _) _)) as [e|order] eqn:Hm;
      eexists; (split; [reflexivity|]).
    + left. split; [reflexivity|]. exists e. simpl. auto.
    + right. split; [reflexivity|]. do 2 eexists. split; [|exact Hm].
      simpl. auto.
Qed.

(** X12: the payment route checks nothing before it calls the gateway: for
    a body without [amount] the order it hands over has the amount NaN. *)
Theorem payment_without_amount_orders_nan :
  forall (W : Type) (env : forall ev : event, W -> reply ev * W)
         (ToNumberOther : jsval -> float) (w : W)
         (fields : list (string * jsval)),
    lookup "amount" fields = JUndefined ->
    amount_of (snd (run env (post_api_payment ToNumberOther (JObj fields)) w))
      = Some (JNum PrimFloat.nan).
Proof.
  intros W env tn w fields Ha.
  destruct (payment_calls W env tn (JObj fields) w eq_refl) as [rest ->].
  simpl. rewrite Ha. reflexivity.
Qed.

Lemma payment_without_amount_orders_nan_witness :
  amount_of (snd (run answer
    (post_api_payment no_parse (JObj [("currency", JStr "INR")])) scenario_world))
    = Some (JNum PrimFloat.nan).
Proof.
  exact (payment_without_amount_orders_nan world answer no_parse scenario_world
           [("currency", JStr "INR")] eq_refl).
Defined.

(** ** Bookings *)

(** X13: only the seven booking fields of a body reach the model: the
    booking route hands over one document, whose fields are exactly those
    seven, so two bodies that agree on them hand over the same document
    whatever else they hold. *)
Theorem only_the_booking_fields_reach_the_model :
  forall (W : Type) (env : forall ev : event, W -> reply ev * W) (w1 w2 : W)
         (body1 body2 : jsval),
    nullish body1 = false ->
    nullish body2 = false ->
    (forall k, In k booking_fields -> prop body1 k = prop body2 k) ->
    exists doc,
      saved_documents (snd (run env (post_api_bookings body1) w1)) = [doc] /\
      saved_documents (snd (run env (post_api_bookings body2) w2)) = [doc] /\
      keys doc = booking_fields.
Proof.
  intros W env w1 w2 body1 body2 H1 H2 Hk.
  rewrite !run_post_api_bookings by assumption. cbv zeta. cbn [snd].
  exists (new_booking body1). split; [reflexivity|]. split; [|reflexivity].
  unfold new_booking. simpl saved_documents.
  now rewrite !Hk by (simpl; tauto).
Qed.

Lemma only_the_booking_fields_reach_the_model_witness :
  exists doc,
    saved_documents (snd (run answer
      (post_api_bookings (JObj scenario_fields)) scenario_world)) = [doc] /\
    saved_documents (snd (run answer
      (post_api_bookings (JObj (("isAdmin", JBool true) :: scenario_fields)))
      scenario_world)) = [doc] /\
    keys doc = booking_fields.
Proof.
  apply (only_the_booking_fields_reach_the_model world answer
           scenario_world scenario_world (JObj scenario_fields)
           (JObj (("isAdmin", JBool true) :: scenario_fields)));
    try reflexivity.
  intros k Hk. repeat (destruct Hk as [<-|Hk]; [reflexivity|]). destruct Hk.
Defined.

(** X14: a booking or payment request without a body is answered 500 and
    reaches neither the model nor the gateway: the booking route makes no
    call at all and leaves the environment as it was, the payment route only
    logs the error. *)
Theorem requests_without_a_body_reach_nothing :
  forall (W : Type) (env : forall ev : event, W -> reply ev * W)
         (ToNumberOther : jsval -> float) (w : W) (req_body : jsval),
    nullish req_body = true ->
    (exists r,
       run env (post_api_bookings req_body) w = (Done r, w, []) /\ status r = 500) /\
    (exists r w' e,
       run env (post_api_payment ToNumberOther req_body) w
         = (Done r, w', [ConsoleError "Razorpay Error:" e]) /\
       error_name e = "TypeError" /\ status r = 500).
Proof.
  intros W env tn w req_body Hb. split.
  - destruct (run_post_api_bookings_nullish env req_body w Hb) as [e ->].
    eexists. split; reflexivity.
  - destruct req_body; try discriminate Hb; simpl;
      destruct (env (ConsoleError _ _) w) as [[] w1];
      do 3 eexists; repeat split.
Qed.

Lemma requests_without_a_body_reach_nothing_witness :
  (exists r,
     run answer (post_api_bookings JUndefined) scenario_world
       = (Done r, scenario_world, []) /\ status r = 500) /\
  (exists r w' e,
     run answer (post_api_payment no_parse JUndefined) scenario_world
       = (Done r, w', [ConsoleError "Razorpay Error:" e]) /\
     error_name e = "TypeError" /\ status r = 500).
Proof.
  exact (requests_without_a_body_reach_nothing world answer no_parse
           scenario_world JUndefined eq_refl).
Defined.
